(** * The front-end delivery stack: construct tree, pipeline wiring, policy

    A shallow embedding of [lib/eda-todo-frontend-pipeline-stack.ts].  The
    constructor of [EdaTodoFrontendPipelineStack] is a straight-line program
    that registers constructs under the stack ([new X(this, name, props)]),
    allocates two artifact objects, and then mutates two of the registered
    constructs ([pipeline.addStage], [project.addToRolePolicy]).  It is
    embedded as a computation in a state monad whose state is the stack
    under construction; constructs are referred to by their position among
    the children of the stack, artifacts by their allocation address. *)

From Stdlib Require Import Ascii String.
From stdpp Require Import base list strings.


(** ** Values of the host language *)

(** An object literal keeps its keys in the order they are written. *)
#[local] Set Warnings "-register-all".
Inductive Json : Type :=
| JStr (s : string)
| JArr (items : list Json)
| JObj (fields : list (string * Json)).

(** [o[k]] for an object literal; [None] stands for [undefined]. *)
Fixpoint assoc (k : string) (fields : list (string * Json)) : option Json :=
  match fields with
  | [] => None
  | (k', v) :: rest => if String.eqb k k' then Some v else assoc k rest
  end.

Definition field (k : string) (j : Json) : option Json :=
  match j with
  | JObj fields => assoc k fields
  | _ => None
  end.

Definition keys (j : Json) : list string :=
  match j with
  | JObj fields => fst <$> fields
  | _ => []
  end.

Definition strings_of (j : Json) : option (list string) :=
  match j with
  | JArr items =>
      mapM (λ x, match x with JStr s => Some s | _ => None end) items
  | _ => None
  end.

(** The double quote character, for string literals that contain one. *)
Definition dquote : string := String "034"%char EmptyString.

(** [String.prototype.toLocaleLowerCase] on ASCII strings, in a host locale
    without special case mappings for ASCII letters (any but the Turkic
    ones): the letters [A]..[Z] go to [a]..[z], every other ASCII character
    is kept.  Strings with characters outside ASCII are outside what this
    function models (it leaves their bytes alone, the real one does not);
    [new_EdaTodoFrontendPipelineStack] reports them as [Unmodelled]. *)
Definition is_upper (c : ascii) : bool :=
  let n := nat_of_ascii c in Nat.leb 65 n && Nat.leb n 90.

Definition lower_char (c : ascii) : ascii :=
  if is_upper c then ascii_of_nat (nat_of_ascii c + 32) else c.

Fixpoint toLocaleLowerCase (s : string) : string :=
  match s with
  | EmptyString => EmptyString
  | String c rest => String (lower_char c) (toLocaleLowerCase rest)
  end.

(** A construct registered under the stack is referred to by its position
    among the stack's children. *)
Definition Handle := nat.

(** Values that are only known at deployment: attributes of constructs of
    the stack, and secrets. *)
Inductive Token : Type :=
| distributionId (dist : Handle)
| domainName (dist : Handle)
| bucketWebsiteUrl (bucket : Handle)
| secretsManager (secretId : string).

(** ** The construct library, one module per imported name space *)

Module cdk.
Inductive RemovalPolicy := DESTROY | RETAIN | SNAPSHOT.

Record StackProps := {
  stackName : option string;
  description : option string
}.

Record CfnOutputProps := {
  value : Token;
  output_description : string
}.
End cdk.

Module S3.
Record BucketProps := {
  bucketName : string;
  removalPolicy : cdk.RemovalPolicy;
  websiteIndexDocument : string;
  websiteErrorDocument : string;
  publicReadAccess : bool
}.
End S3.

Module origins.
Inductive Origin := S3Origin (bucket : Handle).
End origins.

Module cloudfront.
Inductive ViewerProtocolPolicy := HTTPS_ONLY | REDIRECT_TO_HTTPS | ALLOW_ALL.
Inductive OriginRequestPolicy :=
  USER_AGENT_REFERER_HEADERS | CORS_CUSTOM_ORIGIN | CORS_S3_ORIGIN | ALL_VIEWER.

Record BehaviorOptions := {
  origin : origins.Origin;
  viewerProtocolPolicy : ViewerProtocolPolicy;
  originRequestPolicy : OriginRequestPolicy
}.

Record DistributionProps := {
  defaultBehavior : BehaviorOptions
}.
End cloudfront.

Module iam.
Inductive Effect := ALLOW | DENY.

Record PolicyStatement := {
  effect : Effect;
  resources : list string;
  actions : list string
}.
End iam.

Module CodeBuild.
Inductive LinuxBuildImage := STANDARD_5_0.

Record BuildEnvironment := {
  buildImage : LinuxBuildImage
}.

(** [rolePolicy] holds the statements the code of the stack attaches with
    [addToRolePolicy].  (The toolkit attaches statements of its own to every
    project, for its logs and its pipeline; those are not modelled.) *)
Record PipelineProject := {
  projectName : string;
  buildSpec : Json;
  environment : option BuildEnvironment;
  environmentVariables : list (string * Token);
  rolePolicy : list iam.PolicyStatement
}.

Definition addToRolePolicy (statement : iam.PolicyStatement)
    (p : PipelineProject) : PipelineProject :=
  {| projectName := projectName p;
     buildSpec := buildSpec p;
     environment := environment p;
     environmentVariables := environmentVariables p;
     rolePolicy := rolePolicy p ++ [statement] |}.
End CodeBuild.

Module CodePipeline.
(** [new CodePipeline.Artifact()] is an object without a name; what
    identifies it is where it was allocated. *)
Record Artifact := {
  address : nat;
  artifactName : option string
}.
End CodePipeline.

Module CodePipelineAction.
Import CodePipeline.

Inductive Action : Type :=
| GitHubSourceAction (actionName owner repo : string) (oauthToken : Token)
    (output : Artifact) (branch : string)
| CodeBuildAction (actionName : string) (project : Handle)
    (input : Artifact) (outputs : list Artifact) (runOrder : option nat)
| S3DeployAction (actionName : string) (input : Artifact)
    (bucket : Handle) (runOrder : option nat).

Definition actionName (a : Action) : string :=
  match a with
  | GitHubSourceAction n _ _ _ _ _ => n
  | CodeBuildAction n _ _ _ _ => n
  | S3DeployAction n _ _ _ => n
  end.

Definition inputs (a : Action) : list Artifact :=
  match a with
  | GitHubSourceAction _ _ _ _ _ _ => []
  | CodeBuildAction _ _ i _ _ => [i]
  | S3DeployAction _ i _ _ => [i]
  end.

Definition outputs (a : Action) : list Artifact :=
  match a with
  | GitHubSourceAction _ _ _ _ o _ => [o]
  | CodeBuildAction _ _ _ os _ => os
  | S3DeployAction _ _ _ _ => []
  end.
End CodePipelineAction.

Module Pipeline.
Record StageProps := {
  stageName : string;
  actions : list CodePipelineAction.Action
}.

Record Pipeline := {
  pipelineName : string;
  crossAccountKeys : bool;
  restartExecutionOnUpdate : bool;
  stages : list StageProps
}.

(** [pipeline.addStage(props)] without a placement appends the stage. *)
Definition addStage (props : StageProps) (p : Pipeline) : Pipeline :=
  {| pipelineName := pipelineName p;
     crossAccountKeys := crossAccountKeys p;
     restartExecutionOnUpdate := restartExecutionOnUpdate p;
     stages := stages p ++ [props] |}.
End Pipeline.

(** ** The stack under construction *)

Inductive Construct : Type :=
| Bucket (props : S3.BucketProps)
| Distribution (props : cloudfront.DistributionProps)
| PipelineC (p : Pipeline.Pipeline)
| PipelineProject (p : CodeBuild.PipelineProject)
| CfnOutput (props : cdk.CfnOutputProps).

(** The children of the stack in the order they were registered, each under
    its construct id, and the number of artifact objects allocated. *)
Record Stack := {
  stackId : string;
  stackProps : option cdk.StackProps;
  children : list (string * Construct);
  artifacts : nat
}.

(** [super(scope, id, props)]: a stack without children. *)
Definition super (id : string) (props : option cdk.StackProps) : Stack :=
  {| stackId := id; stackProps := props; children := []; artifacts := 0 |}.

Definition M (A : Type) : Type := Stack → A * Stack.

#[global] Instance M_ret : MRet M := λ A x s, (x, s).
#[global] Instance M_bind : MBind M :=
  λ A B f m s, let '(x, s') := m s in f x s'.

(** [new C(this, name, ...)]: register a child, return the reference.  (The
    toolkit refuses a name that a child of the scope already has; the names
    the constructor uses are pairwise distinct whatever the id, see
    [children_names_distinct].) *)
Definition register (name : string) (c : Construct) : M Handle :=
  λ s, (length (children s),
        {| stackId := stackId s; stackProps := stackProps s;
           children := children s ++ [(name, c)];
           artifacts := artifacts s |}).

(** [new CodePipeline.Artifact()]: a fresh object. *)
Definition new_Artifact : M CodePipeline.Artifact :=
  λ s, ({| CodePipeline.address := artifacts s;
           CodePipeline.artifactName := None |},
        {| stackId := stackId s; stackProps := stackProps s;
           children := children s;
           artifacts := S (artifacts s) |}).

(** A method call that mutates the construct behind a reference.  (The
    constructor only calls a method on a reference it has just obtained for
    a construct of the method's class.) *)
Definition mutate (h : Handle) (f : Construct → Construct) : M unit :=
  λ s, (tt,
        {| stackId := stackId s; stackProps := stackProps s;
           children := alter (λ nc, (nc.1, f nc.2)) h (children s);
           artifacts := artifacts s |}).

Definition addStage (pipeline : Handle) (props : Pipeline.StageProps) : M unit :=
  mutate pipeline (λ c,
    match c with
    | PipelineC p => PipelineC (Pipeline.addStage props p)
    | other => other
    end).

Definition addToRolePolicy (project : Handle) (st : iam.PolicyStatement) : M unit :=
  mutate project (λ c,
    match c with
    | PipelineProject p => PipelineProject (CodeBuild.addToRolePolicy st p)
    | other => other
    end).

(** ** The constructor *)

Import CodePipelineAction.

Definition EdaTodoFrontendPipelineStack_body (id : string) : M unit :=
  (* Amazon S3 bucket to store CRA website *)
  bucketWebsite ← register (id +:+ "_website_bucket") (Bucket
    {| S3.bucketName := toLocaleLowerCase (id +:+ "-website-bucket");
       S3.removalPolicy := cdk.DESTROY;
       S3.websiteIndexDocument := "index.html";
       S3.websiteErrorDocument := "error.html";
       S3.publicReadAccess := true |});
  dist ← register (id +:+ "_cloudfront_dist_for_website_bucket") (Distribution
    {| cloudfront.defaultBehavior :=
         {| cloudfront.origin := origins.S3Origin bucketWebsite;
            cloudfront.viewerProtocolPolicy := cloudfront.REDIRECT_TO_HTTPS;
            cloudfront.originRequestPolicy := cloudfront.ALL_VIEWER |} |});
  (* AWS CodeBuild artifacts *)
  outputSources ← new_Artifact;
  outputWebsite ← new_Artifact;
  (* AWS CodePipeline pipeline *)
  pipeline ← register (id +:+ "_pipeline") (PipelineC
    {| Pipeline.pipelineName := id +:+ "_pipeline";
       Pipeline.crossAccountKeys := false;
       Pipeline.restartExecutionOnUpdate := true;
       Pipeline.stages := [] |});
  (* stage to clone sources from GitHub repository *)
  addStage pipeline
    {| Pipeline.stageName := "Source";
       Pipeline.actions :=
         [GitHubSourceAction "Checkout" "nabeelfarid" "eda-todo-frontend"
            (secretsManager "GITHUB_TOKEN_FOR_AWS") outputSources "master"] |};;
  (* stage to build the website *)
  buildProject ← register (id +:+ "_codebuild_project_build_website") (PipelineProject
    {| CodeBuild.projectName := id +:+ "_codebuild_project_build_website";
       CodeBuild.buildSpec := JObj
         [("version", JStr "0.2");
          ("phases", JObj
            [("install", JObj
               [("runtime-versions", JObj [("nodejs", JStr "latest")]);
                ("commands", JArr
                  [JStr "npm update -g";
                   JStr "npm install -g gatsby-cli";
                   JStr "npm install -g yarn";
                   JStr "yarn"])]);
             ("build", JObj
               [("commands", JArr [JStr "gatsby build"])])]);
          ("artifacts", JObj
            [("base-directory", JStr "./public");
             ("files", JArr [JStr "**/*"])])];
       CodeBuild.environment := Some {| CodeBuild.buildImage := CodeBuild.STANDARD_5_0 |};
       CodeBuild.environmentVariables := [];
       CodeBuild.rolePolicy := [] |});
  addStage pipeline
    {| Pipeline.stageName := "Build";
       Pipeline.actions :=
         [CodeBuildAction "Build-Gatsby-Website" buildProject
            outputSources [outputWebsite] None] |};;
  (* stage to deploy the website to S3 *)
  addStage pipeline
    {| Pipeline.stageName := "Deploy";
       Pipeline.actions :=
         [S3DeployAction "DeployWebsite" outputWebsite bucketWebsite (Some 1)] |};;
  (* the build project that invalidates the cloudfront cache *)
  invalidateBuildProject ←
    register (id +:+ "_codebuild_project_cloudfront_cache_invalidation") (PipelineProject
    {| CodeBuild.projectName := id +:+ "_codebuild_project_cloudfront_cache_invalidation";
       CodeBuild.buildSpec := JObj
         [("version", JStr "0.2");
          ("phases", JObj
            [("build", JObj
               [("commands", JArr
                  [JStr ("aws cloudfront create-invalidation --distribution-id ${CLOUDFRONT_ID} --paths "
                         +:+ dquote +:+ "/*" +:+ dquote)])])])];
       CodeBuild.environment := None;
       CodeBuild.environmentVariables := [("CLOUDFRONT_ID", distributionId dist)];
       CodeBuild.rolePolicy := [] |});
  (* iam policy to invalidate cloudfront distribution's cache *)
  addToRolePolicy invalidateBuildProject
    {| iam.effect := iam.ALLOW;
       iam.resources := ["*"];
       iam.actions :=
         ["cloudfront:CreateInvalidation";
          "cloudfront:GetDistribution*";
          "cloudfront:GetInvalidation";
          "cloudfront:ListInvalidations";
          "cloudfront:ListDistributions"] |};;
  addStage pipeline
    {| Pipeline.stageName := "CacheInvalidation";
       Pipeline.actions :=
         [CodeBuildAction "Invalidate-Cache" invalidateBuildProject
            outputWebsite [] (Some 1)] |};;
  _ ← register "BucketWebsiteURL" (CfnOutput
    {| cdk.value := bucketWebsiteUrl bucketWebsite;
       cdk.output_description := "Bucket Website URL" |});
  _ ← register "CloudFrontURL" (CfnOutput
    {| cdk.value := domainName dist;
       cdk.output_description := "CloudFront URL" |});
  mret tt.

(** [new EdaTodoFrontendPipelineStack(scope, id, props)]. *)
Definition EdaTodoFrontendPipelineStack (id : string)
    (props : option cdk.StackProps) : Stack :=
  (EdaTodoFrontendPipelineStack_body id (super id props)).2.

(** The stack the repository's test instantiates: an id, no props. *)
Definition MyTestStack : Stack := EdaTodoFrontendPipelineStack "MyTestStack" None.

(** ** Reading the finished stack *)

(** The construct behind a reference. *)
Definition child (s : Stack) (h : Handle) : option Construct :=
  snd <$> children s !! h.

Inductive Kind := KBucket | KDistribution | KPipeline | KProject | KOutput.

Definition kind_of (c : Construct) : Kind :=
  match c with
  | Bucket _ => KBucket
  | Distribution _ => KDistribution
  | PipelineC _ => KPipeline
  | PipelineProject _ => KProject
  | CfnOutput _ => KOutput
  end.

Definition is_output (c : Construct) : bool :=
  match c with CfnOutput _ => true | _ => false end.

(** The two sections of the template the children of the stack go to: a
    [CfnOutput] is an output, every other child declares resources. *)
Definition Resources (s : Stack) : list (string * Construct) :=
  filter (λ nc, is_output nc.2 = false) (children s).

Definition Outputs (s : Stack) : list (string * Construct) :=
  filter (λ nc, is_output nc.2 = true) (children s).

Definition declared (cs : list (string * Construct)) : list (string * Kind) :=
  (λ nc, (nc.1, kind_of nc.2)) <$> cs.

Definition pipelines (s : Stack) : list Pipeline.Pipeline :=
  omap (λ nc, match nc.2 with PipelineC p => Some p | _ => None end) (children s).

Definition buckets (s : Stack) : list S3.BucketProps :=
  omap (λ nc, match nc.2 with Bucket b => Some b | _ => None end) (children s).

Definition distributions (s : Stack) : list cloudfront.DistributionProps :=
  omap (λ nc, match nc.2 with Distribution d => Some d | _ => None end) (children s).

(** The stages of the stack's pipelines that carry a given name. *)
Definition stages_named (name : string) (s : Stack) : list Pipeline.StageProps :=
  p ← pipelines s;
  filter (λ st, Pipeline.stageName st = name) (Pipeline.stages p).

Definition actions_of_stage (name : string) (s : Stack) : list Action :=
  st ← stages_named name s; Pipeline.actions st.

(** The build projects run by the actions of a stage. *)
Definition projects_of_stage (name : string) (s : Stack) : list CodeBuild.PipelineProject :=
  omap (λ a,
    match a with
    | CodeBuildAction _ project _ _ _ =>
        match child s project with
        | Some (PipelineProject p) => Some p
        | _ => None
        end
    | _ => None
    end) (actions_of_stage name s).

(** The buckets the deploy actions of a stage upload to. *)
Definition deploy_targets (name : string) (s : Stack) : list Handle :=
  omap (λ a, match a with S3DeployAction _ _ bucket _ => Some bucket | _ => None end)
    (actions_of_stage name s).

(** The commands of one phase of a build specification. *)
Definition phase_commands (phase : string) (spec : Json) : option (list string) :=
  phases ← field "phases" spec;
  section ← field phase phases;
  commands ← field "commands" section;
  strings_of commands.

(** ** Wiring of artifacts *)

#[global] Instance Artifact_eq_dec : EqDecision CodePipeline.Artifact.
Proof. solve_decision. Defined.

(** [art] is an output of an action of a stage strictly before stage [i]. *)
Definition produced_before (stages : list Pipeline.StageProps) (i : nat)
    (art : CodePipeline.Artifact) : Prop :=
  ∃ j st b, j < i ∧ stages !! j = Some st ∧ b ∈ Pipeline.actions st ∧ art ∈ outputs b.

(** All outputs of the actions of a stage. *)
Definition stage_outputs (st : Pipeline.StageProps) : list CodePipeline.Artifact :=
  a ← Pipeline.actions st; outputs a.

(** One pass over the stages, carrying what the stages so far have produced. *)
Fixpoint check_wiring (produced : list CodePipeline.Artifact)
    (stages : list Pipeline.StageProps) : bool :=
  match stages with
  | [] => true
  | st :: rest =>
      forallb (λ a, forallb (λ art, bool_decide (art ∈ produced)) (inputs a))
        (Pipeline.actions st)
      && check_wiring (produced ++ stage_outputs st) rest
  end.

(** The last character of a string. *)
Fixpoint last_char (s : string) : option ascii :=
  match s with
  | EmptyString => None
  | String c EmptyString => Some c
  | String _ rest => last_char rest
  end.

(** ** Policy statements *)

(** Matching a name against a pattern of a policy statement, where [*]
    stands for any run of characters (none of the patterns of this stack
    uses the one-character wildcard). *)
Fixpoint glob (pattern : string) : string → bool :=
  match pattern with
  | EmptyString => λ s, match s with EmptyString => true | _ => false end
  | String c pattern' =>
      if Ascii.eqb c "*" then
        fix star (s : string) : bool :=
          glob pattern' s
          || match s with EmptyString => false | String _ s' => star s' end
      else
        λ s, match s with
             | EmptyString => false
             | String d s' => Ascii.eqb c d && glob pattern' s'
             end
  end.

(** The actions a statement names, one of its patterns matching. *)
Definition names_action (st : iam.PolicyStatement) (action : string) : bool :=
  existsb (λ pattern, glob pattern action) (iam.actions st).

Definition names_resource (st : iam.PolicyStatement) (resource : string) : bool :=
  existsb (λ pattern, glob pattern resource) (iam.resources st).

(** What a statement allows. *)
Definition allows (st : iam.PolicyStatement) (action resource : string) : bool :=
  match iam.effect st with
  | iam.ALLOW => names_action st action && names_resource st resource
  | iam.DENY => false
  end.

Fixpoint no_star (s : string) : bool :=
  match s with
  | EmptyString => true
  | String c rest => negb (Ascii.eqb c "*") && no_star rest
  end.

(** ** Letter case *)

(** Two characters that are equal, or the two cases of one letter. *)
Definition same_letter (c d : ascii) : bool :=
  Ascii.eqb c d
  || (is_upper c && Ascii.eqb d (ascii_of_nat (nat_of_ascii c + 32)))
  || (is_upper d && Ascii.eqb c (ascii_of_nat (nat_of_ascii d + 32))).

(** Two strings that differ at most in the case of their letters. *)
Fixpoint differ_only_in_case (s t : string) : bool :=
  match s, t with
  | EmptyString, EmptyString => true
  | String c s', String d t' => same_letter c d && differ_only_in_case s' t'
  | _, _ => false
  end.

(** ** The command line of an invalidation *)

(** The shell command that asks for an invalidation of [paths] on the
    distribution whose identifier the variable [var] holds. *)
Definition create_invalidation (var paths : string) : string :=
  "aws cloudfront create-invalidation --distribution-id ${" +:+ var +:+ "} --paths "
  +:+ dquote +:+ paths +:+ dquote.

(** ** The stack of the test, piece by piece *)

Definition no_pipeline : Pipeline.Pipeline :=
  {| Pipeline.pipelineName := EmptyString;
     Pipeline.crossAccountKeys := false;
     Pipeline.restartExecutionOnUpdate := false;
     Pipeline.stages := [] |}.

Definition MyTestStack_pipeline : Pipeline.Pipeline :=
  Eval vm_compute in default no_pipeline (head (pipelines MyTestStack)).

(** The second artifact object the constructor allocates. *)
Definition outputWebsite : CodePipeline.Artifact :=
  {| CodePipeline.address := 1; CodePipeline.artifactName := None |}.

(** The action set the specification gives for the invalidation policy. *)
Definition spec_action_set : list string :=
  ["cloudfront:CreateInvalidation";
   "cloudfront:GetDistribution";
   "cloudfront:GetInvalidation";
   "cloudfront:ListInvalidations";
   "cloudfront:ListDistributions"].

(** The statements attached to the project of the CacheInvalidation stage. *)
Definition invalidation_policy (s : Stack) : list iam.PolicyStatement :=
  p ← projects_of_stage "CacheInvalidation" s; CodeBuild.rolePolicy p.

(** ** Names, characters and the flow of artifacts *)

Definition is_lower (c : ascii) : bool :=
  let n := nat_of_ascii c in Nat.leb 97 n && Nat.leb n 122.

Definition is_digit (c : ascii) : bool :=
  let n := nat_of_ascii c in Nat.leb 48 n && Nat.leb n 57.

Definition is_hyphen (c : ascii) : bool := Ascii.eqb c "-".

(** A letter of either case, a digit or a hyphen. *)
Definition stack_name_char (c : ascii) : bool :=
  is_upper c || is_lower c || is_digit c || is_hyphen c.


Fixpoint all_chars (P : ascii → bool) (s : string) : bool :=
  match s with
  | EmptyString => true
  | String c rest => P c && all_chars P rest
  end.

Definition bucket_names (s : Stack) : list string :=
  S3.bucketName <$> buckets s.

Definition pipeline_names (s : Stack) : list string :=
  Pipeline.pipelineName <$> pipelines s.

(** All build projects of the stack, whether an action runs them or not. *)
Definition projects (s : Stack) : list CodeBuild.PipelineProject :=
  omap (λ nc, match nc.2 with PipelineProject p => Some p | _ => None end) (children s).

Definition project_names (s : Stack) : list string :=
  CodeBuild.projectName <$> projects s.

(** The outputs of the stack: name and value. *)
Definition output_values (s : Stack) : list (string * Token) :=
  omap (λ nc, match nc.2 with CfnOutput o => Some (nc.1, cdk.value o) | _ => None end)
    (children s).

(** All inputs of the actions of a stage. *)
Definition stage_inputs (st : Pipeline.StageProps) : list CodePipeline.Artifact :=
  a ← Pipeline.actions st; inputs a.

(** Everything the stages of a pipeline produce, in order. *)
Definition all_outputs (stages : list Pipeline.StageProps) : list CodePipeline.Artifact :=
  st ← stages; stage_outputs st.

(** [art] is an input of an action of a stage strictly after stage [j]. *)
Definition consumed_after (stages : list Pipeline.StageProps) (j : nat)
    (art : CodePipeline.Artifact) : Prop :=
  ∃ i st a, j < i ∧ stages !! i = Some st ∧ a ∈ Pipeline.actions st ∧ art ∈ inputs a.

(** One pass over the stages: what a stage produces is read further on. *)
Fixpoint check_consumed (stages : list Pipeline.StageProps) : bool :=
  match stages with
  | [] => true
  | st :: rest =>
      forallb (λ art, bool_decide (art ∈ (rest ≫= stage_inputs))) (stage_outputs st)
      && check_consumed rest
  end.

(** [art] is an output of actions of stages strictly before stage [i] only. *)
Definition produced_only_before (stages : list Pipeline.StageProps) (i : nat)
    (art : CodePipeline.Artifact) : Prop :=
  ∀ j st b, stages !! j = Some st → b ∈ Pipeline.actions st → art ∈ outputs b → j < i.

(** One pass over the stages: no input of a stage is an output of that stage
    or of a stage after it. *)
Fixpoint check_no_late_producer (stages : list Pipeline.StageProps) : bool :=
  match stages with
  | [] => true
  | st :: rest =>
      forallb (λ art, bool_decide (art ∉ all_outputs (st :: rest))) (stage_inputs st)
      && check_no_late_producer rest
  end.

(** ** What the toolkit refuses *)

Definition is_dot (c : ascii) : bool := Ascii.eqb c ".".

Definition is_ascii (c : ascii) : bool := Nat.ltb (nat_of_ascii c) 128.

Definition is_letter (c : ascii) : bool := is_upper c || is_lower c.

(** A letter, a digit, a hyphen or a dot. *)
Definition id_char (c : ascii) : bool := stack_name_char c || is_dot c.

(** The check of [cdk.Stack] on the name of the stack: it has to match
    [/^[A-Za-z][A-Za-z0-9-]*$/] and to have 128 characters at most. *)
Definition valid_stack_name (name : string) : bool :=
  match name with
  | EmptyString => false
  | String c rest => is_letter c && all_chars stack_name_char rest
  end
  && Nat.leb (String.length name) 128.

(** A character of [[a-z0-9.-]]. *)
Definition s3_char (c : ascii) : bool :=
  is_lower c || is_digit c || is_dot c || is_hyphen c.

(** A character of [[a-z0-9]]. *)
Definition s3_edge_char (c : ascii) : bool := is_lower c || is_digit c.

Definition first_char (s : string) : option ascii :=
  match s with
  | EmptyString => None
  | String c _ => Some c
  end.

(** No dot next to a dot or to a hyphen. *)
Fixpoint no_symbol_pair (s : string) : bool :=
  match s with
  | String c (String d _ as rest) =>
      negb ((is_dot c && (is_dot d || is_hyphen d)) || (is_hyphen c && is_dot d))
      && no_symbol_pair rest
  | _ => true
  end.

(** The check of [S3.Bucket] on a bucket name given as a string: 3 to 63
    characters of [[a-z0-9.-]], the first and the last one a letter or a
    digit, no dot next to a dot or a hyphen.  (Its last check, against names
    that look like an IP address, is left out: a name with a letter passes
    it, and the names of this stack end in [-website-bucket].) *)
Definition valid_bucket_name (name : string) : bool :=
  Nat.leb 3 (String.length name) && Nat.leb (String.length name) 63
  && all_chars s3_char name
  && from_option s3_edge_char false (first_char name)
  && from_option s3_edge_char false (last_char name)
  && no_symbol_pair name.

(** What [new EdaTodoFrontendPipelineStack(scope, id, props)] comes to. *)
Inductive Outcome : Type :=
| Built (s : Stack)
| Thrown
| Unmodelled.

(** The constructor with the two checks of the toolkit that depend on the
    id: [super] throws unless the stack name, which is [props.stackName] or
    else the id, is valid; [new S3.Bucket] throws unless the bucket name is
    valid.  Both happen before any other statement can be observed.  An id
    with a character outside ASCII that gets past [super] is outside the
    model, see [toLocaleLowerCase]. *)
Definition new_EdaTodoFrontendPipelineStack (id : string)
    (props : option cdk.StackProps) : Outcome :=
  if negb (valid_stack_name (default id (props ≫= cdk.stackName))) then Thrown
  else if negb (all_chars is_ascii id) then Unmodelled
  else if negb (valid_bucket_name (toLocaleLowerCase (id +:+ "-website-bucket")))
  then Thrown
  else Built (EdaTodoFrontendPipelineStack id props).

(** The character 32 places further on: the lower case of a capital. *)
Definition shift_case (c : ascii) : ascii := ascii_of_nat (nat_of_ascii c + 32).

(** Case analysis on the 256 characters. *)
Ltac each_char c := destruct c as [[] [] [] [] [] [] [] []].

(** * Properties *)

Section Synthesis.
Variable id : string.
Variable props : option cdk.StackProps.

Let stack := EdaTodoFrontendPipelineStack id props.

(** ** The children of the stack *)

(** The constructor registers seven children, in this order. *)
Lemma children_declared :
  declared (children stack) =
    [(id +:+ "_website_bucket", KBucket);
     (id +:+ "_cloudfront_dist_for_website_bucket", KDistribution);
     (id +:+ "_pipeline", KPipeline);
     (id +:+ "_codebuild_project_build_website", KProject);
     (id +:+ "_codebuild_project_cloudfront_cache_invalidation", KProject);
     ("BucketWebsiteURL", KOutput);
     ("CloudFrontURL", KOutput)].
Proof. reflexivity. Qed.

Lemma append_inv_head (s a b : string) : s +:+ a = s +:+ b → a = b.
Proof. induction s as [|c s IH]; simpl; [done | intros [= H]; auto]. Qed.

Lemma last_char_append (s : string) (c : ascii) (t : string) :
  last_char (s +:+ String c t) = last_char (String c t).
Proof.
  induction s as [|d s IH]; [reflexivity|].
  change (last_char (String d (s +:+ String c t)) = last_char (String c t)).
  rewrite <- IH. simpl. by destruct s.
Qed.

(** No construct id is used twice, so no registration is refused. *)
Lemma children_names_distinct : NoDup (fst <$> children stack).
Proof.
  assert (Hsuffix : ∀ a b : string, a ≠ b → id +:+ a ≠ id +:+ b).
  { intros a b Hab H. apply Hab. by apply append_inv_head in H. }
  assert (Hlast : ∀ (c : ascii) (t n : string),
            last_char (String c t) ≠ last_char n → id +:+ String c t ≠ n).
  { intros c t n Hne H. apply Hne. by rewrite <- H, last_char_append. }
  change (fst <$> children stack) with (fst <$> declared (children stack)).
  rewrite children_declared. simpl.
  repeat (apply NoDup_cons; split;
    [rewrite ?elem_of_cons, elem_of_nil;
     intros H; repeat (destruct H as [H | H]); try done;
     first [ by apply Hsuffix in H | by apply Hlast in H | discriminate H ] |]).
  apply NoDup_nil_2.
Qed.

(** Both artifact objects of the constructor are distinct objects. *)
Lemma two_artifacts : artifacts stack = 2.
Proof. reflexivity. Qed.

(** For every id and every props the stack declares five resource
    constructs (the website bucket, the distribution in front of it, the
    pipeline and the two build projects, under construct ids derived from
    the stack id) and two outputs; its resource section is never empty. *)
Theorem resources_declared :
  declared (Resources stack) =
    [(id +:+ "_website_bucket", KBucket);
     (id +:+ "_cloudfront_dist_for_website_bucket", KDistribution);
     (id +:+ "_pipeline", KPipeline);
     (id +:+ "_codebuild_project_build_website", KProject);
     (id +:+ "_codebuild_project_cloudfront_cache_invalidation", KProject)]
  ∧ declared (Outputs stack) =
    [("BucketWebsiteURL", KOutput); ("CloudFrontURL", KOutput)]
  ∧ Resources stack ≠ [].
Proof.
  split; [reflexivity|]. split; [reflexivity|].
  intros H. apply (f_equal length) in H. vm_compute in H. discriminate H.
Qed.

(** ** The pipeline *)

(** C2: the stack has one pipeline, and its stages are Source, Build,
    Deploy, CacheInvalidation, in this order and no others. *)
Theorem pipeline_has_four_stages :
  (λ p, Pipeline.stageName <$> Pipeline.stages p) <$> pipelines stack
  = [["Source"; "Build"; "Deploy"; "CacheInvalidation"]].
Proof. reflexivity. Qed.

End Synthesis.

(** C1: the stack of the repository's own test ['Empty Stack'], built from
    the id [MyTestStack] alone, has a resource section that is not empty,
    whereas the test expects the template [{ Resources: {} }]. *)
Lemma empty_stack_has_resources :
  ¬ (Resources (EdaTodoFrontendPipelineStack "MyTestStack" None) = []).
Proof. intros H. apply (f_equal length) in H. vm_compute in H. discriminate H. Qed.

(** ** Artifacts are produced before they are consumed *)

Section Wiring.
Import Pipeline.

(** What [check_wiring] accepts: every input of every action was either
    produced before the first stage looked at, or is an output of an
    earlier one of the stages looked at. *)
Lemma check_wiring_sound (stages : list StageProps) :
  ∀ produced, check_wiring produced stages = true →
  ∀ i st a art,
    stages !! i = Some st → a ∈ actions st → art ∈ inputs a →
    art ∈ produced ∨ produced_before stages i art.
Proof.
  induction stages as [|st0 rest IH]; intros produced Hcheck i st a art Hst Ha Hart.
  - discriminate Hst.
  - simpl in Hcheck. apply andb_true_iff in Hcheck as [Hhere Hrest].
    destruct i as [|i]; simpl in Hst.
    + injection Hst as <-. left.
      rewrite forallb_forall in Hhere.
      specialize (Hhere a (proj1 (list_elem_of_In _ _) Ha)).
      rewrite forallb_forall in Hhere.
      specialize (Hhere art (proj1 (list_elem_of_In _ _) Hart)).
      by apply bool_decide_eq_true in Hhere.
    + destruct (IH _ Hrest i st a art Hst Ha Hart) as [Hin | (j & stj & b & Hj & Hstj & Hb & Hout)].
      * apply elem_of_app in Hin as [Hin | Hin]; [by left|].
        right. apply list_elem_of_bind in Hin as (b & Hout & Hb).
        exists 0, st0, b. repeat split; [lia | done..].
      * right. exists (S j), stj, b. repeat split; [lia | done..].
Qed.

(** What [check_no_late_producer] accepts: whatever produces an input of an
    action sits in a stage strictly before the stage of that action. *)
Lemma check_no_late_producer_sound (stages : list StageProps) :
  check_no_late_producer stages = true →
  ∀ i st a art,
    stages !! i = Some st → a ∈ actions st → art ∈ inputs a →
    produced_only_before stages i art.
Proof.
  induction stages as [|st0 rest IH]; intros Hcheck i st a art Hst Ha Hart.
  - discriminate Hst.
  - simpl in Hcheck. apply andb_true_iff in Hcheck as [Hhere Hrest].
    intros j stj b Hstj Hb Hout.
    destruct i as [|i]; simpl in Hst.
    + injection Hst as <-.
      rewrite forallb_forall in Hhere.
      assert (Hinput : art ∈ stage_inputs st0).
      { apply list_elem_of_bind. by exists a. }
      specialize (Hhere art (proj1 (list_elem_of_In _ _) Hinput)).
      apply bool_decide_eq_true in Hhere. exfalso. apply Hhere.
      change (art ∈ all_outputs (st0 :: rest)).
      apply list_elem_of_bind. exists stj. split.
      * apply list_elem_of_bind. by exists b.
      * apply list_elem_of_lookup. by exists j.
    + destruct j as [|j]; [lia|]. simpl in Hstj.
      specialize (IH Hrest i st a art Hst Ha Hart j stj b Hstj Hb Hout). lia.
Qed.

Variable id : string.
Variable props : option cdk.StackProps.

(** C3: in the pipeline of the stack, every input artifact of every action
    is an output of an action of a strictly earlier stage, and of no action
    of the same or a later stage: no input refers forward or to its own
    stage, and none is never produced. *)
Theorem inputs_produced_by_earlier_stage :
  ∀ p i st a art,
    p ∈ pipelines (EdaTodoFrontendPipelineStack id props) →
    stages p !! i = Some st → a ∈ actions st → art ∈ inputs a →
    produced_before (stages p) i art ∧ produced_only_before (stages p) i art.
Proof.
  intros p i st a art Hp Hst Ha Hart.
  assert (Hall : forallb (λ q, check_wiring [] (stages q)
                               && check_no_late_producer (stages q))
                   (pipelines (EdaTodoFrontendPipelineStack id props)) = true)
    by (vm_compute; reflexivity).
  rewrite forallb_forall in Hall.
  specialize (Hall p (proj1 (list_elem_of_In _ _) Hp)).
  apply andb_true_iff in Hall as [Hsome Honly].
  split; [|by eapply check_no_late_producer_sound].
  destruct (check_wiring_sound _ _ Hsome i st a art Hst Ha Hart) as [Hnil | H]; [|done].
  by apply elem_of_nil in Hnil.
Qed.

End Wiring.

(** The deploy action of the test's stack reads [outputWebsite], which the
    build action of the stage before has produced, and nothing else has. *)
Lemma inputs_produced_by_earlier_stage_witness :
  produced_before (Pipeline.stages MyTestStack_pipeline) 2 outputWebsite
  ∧ produced_only_before (Pipeline.stages MyTestStack_pipeline) 2 outputWebsite.
Proof.
  apply (inputs_produced_by_earlier_stage "MyTestStack" None MyTestStack_pipeline 2
           {| Pipeline.stageName := "Deploy";
              Pipeline.actions := [S3DeployAction "DeployWebsite" outputWebsite 0 (Some 1)] |}
           (S3DeployAction "DeployWebsite" outputWebsite 0 (Some 1)) outputWebsite).
  - vm_compute. apply list_elem_of_here.
  - reflexivity.
  - apply list_elem_of_here.
  - apply list_elem_of_here.
Defined.

(** ** What the stages refer to *)

Section References.
Variable id : string.
Variable props : option cdk.StackProps.

Let stack := EdaTodoFrontendPipelineStack id props.

(** C4: the Deploy stage has one deploy action; the bucket it uploads to is
    the construct the origin of the stack's distribution refers to, and that
    construct is the website bucket. *)
Theorem deploy_target_is_distribution_origin :
  ∃ (b : Handle) (name : string) (bucket : S3.BucketProps),
    deploy_targets "Deploy" stack = [b]
    ∧ (λ d, cloudfront.origin (cloudfront.defaultBehavior d)) <$> distributions stack
      = [origins.S3Origin b]
    ∧ children stack !! b = Some (name, Bucket bucket)
    ∧ buckets stack = [bucket].
Proof. by eexists 0, _, _. Qed.

(** C5: the project run by the CacheInvalidation stage has one environment
    variable, [CLOUDFRONT_ID], bound to the identifier of the stack's
    distribution, whose origin is the website bucket; its build
    specification has the build phase only, and that phase is the single
    command that creates an invalidation of ["/*"] on the distribution
    named by the variable. *)
Theorem invalidation_targets_the_distribution :
  ∃ (project : CodeBuild.PipelineProject) (d b : Handle)
    (dist : cloudfront.DistributionProps) (bucket : S3.BucketProps),
    projects_of_stage "CacheInvalidation" stack = [project]
    ∧ CodeBuild.environmentVariables project = [("CLOUDFRONT_ID", distributionId d)]
    ∧ child stack d = Some (Distribution dist)
    ∧ distributions stack = [dist]
    ∧ cloudfront.origin (cloudfront.defaultBehavior dist) = origins.S3Origin b
    ∧ child stack b = Some (Bucket bucket)
    ∧ keys <$> field "phases" (CodeBuild.buildSpec project) = Some ["build"]
    ∧ phase_commands "build" (CodeBuild.buildSpec project)
      = Some [create_invalidation "CLOUDFRONT_ID" "/*"].
Proof. by eexists _, 1, 0, _, _. Qed.

(** C7: the artifacts section of the build specification of the website
    build has two fields: the base directory ["./public"] and the file
    list [["**/*"]]. *)
Theorem build_spec_artifacts :
  ∃ project : CodeBuild.PipelineProject,
    projects_of_stage "Build" stack = [project]
    ∧ field "artifacts" (CodeBuild.buildSpec project)
      = Some (JObj [("base-directory", JStr "./public");
                    ("files", JArr [JStr "**/*"])]).
Proof. by eexists. Qed.

(** C8: the build specification of the website build has the phases install
    and build, in this order; install runs the four provisioning commands in
    the order update, generator CLI, dependency manager, dependencies, and
    build runs the site generator. *)
Theorem build_spec_command_order :
  ∃ project : CodeBuild.PipelineProject,
    projects_of_stage "Build" stack = [project]
    ∧ keys <$> field "phases" (CodeBuild.buildSpec project) = Some ["install"; "build"]
    ∧ phase_commands "install" (CodeBuild.buildSpec project)
      = Some ["npm update -g"; "npm install -g gatsby-cli"; "npm install -g yarn"; "yarn"]
    ∧ phase_commands "build" (CodeBuild.buildSpec project) = Some ["gatsby build"].
Proof. by eexists. Qed.

End References.

(** ** The invalidation policy *)

Section Patterns.

Lemma glob_star_any (s : string) : glob "*" s = true.
Proof. induction s as [|c s IH]; [reflexivity|]. simpl in *. exact IH. Qed.

(** A pattern without wildcard matches itself only. *)
Lemma glob_literal (pattern : string) :
  no_star pattern = true → ∀ s, glob pattern s = true ↔ s = pattern.
Proof.
  induction pattern as [|c pattern IH]; intros Hlit s.
  - destruct s; simpl; split; congruence.
  - simpl in Hlit. apply andb_true_iff in Hlit as [Hc Hlit].
    apply negb_true_iff in Hc. simpl. rewrite Hc.
    destruct s as [|d s]; [split; congruence|].
    rewrite andb_true_iff, (IH Hlit s), Ascii.eqb_eq.
    split; [intros [-> ->]; reflexivity | intros [= -> ->]; by split].
Qed.

(** A pattern that ends in its only wildcard matches what starts with the
    part before the wildcard. *)
Lemma glob_prefix (pattern : string) :
  no_star pattern = true →
  ∀ s, glob (pattern +:+ "*") s = true ↔ ∃ rest, s = pattern +:+ rest.
Proof.
  induction pattern as [|c pattern IH]; intros Hlit s.
  - split; [intros _; by exists s | intros _; apply glob_star_any].
  - simpl in Hlit. apply andb_true_iff in Hlit as [Hc Hlit].
    apply negb_true_iff in Hc.
    change (glob (String c pattern +:+ "*") s)
      with (glob (String c (pattern +:+ "*")) s).
    simpl. rewrite Hc.
    destruct s as [|d s].
    + split; [congruence | intros [rest [=]]].
    + rewrite andb_true_iff, (IH Hlit s), Ascii.eqb_eq. split.
      * intros [-> [rest ->]]. by exists rest.
      * intros [rest [= -> ->]]. split; [done | by exists rest].
Qed.

End Patterns.

Section Policy.

(** What a statement with the fields of the constructor's statement allows. *)
Lemma allows_by_pattern (st : iam.PolicyStatement) :
  iam.effect st = iam.ALLOW →
  iam.resources st = ["*"] →
  iam.actions st =
    ["cloudfront:CreateInvalidation";
     "cloudfront:GetDistribution*";
     "cloudfront:GetInvalidation";
     "cloudfront:ListInvalidations";
     "cloudfront:ListDistributions"] →
  ∀ action resource : string,
    allows st action resource = true ↔
      action ∈ ["cloudfront:CreateInvalidation";
                "cloudfront:GetInvalidation";
                "cloudfront:ListInvalidations";
                "cloudfront:ListDistributions"]
      ∨ ∃ rest, action = "cloudfront:GetDistribution" +:+ rest.
Proof.
  intros Heffect Hresources Hactions action resource.
  unfold allows, names_action, names_resource.
  rewrite Heffect, Hresources, Hactions. cbn [existsb].
  rewrite (glob_star_any resource), orb_false_r, andb_true_r, !orb_true_iff.
  rewrite (glob_literal "cloudfront:CreateInvalidation" eq_refl),
    (glob_literal "cloudfront:GetInvalidation" eq_refl),
    (glob_literal "cloudfront:ListInvalidations" eq_refl),
    (glob_literal "cloudfront:ListDistributions" eq_refl).
  pose proof (glob_prefix "cloudfront:GetDistribution" eq_refl action) as Hwild.
  change ("cloudfront:GetDistribution" +:+ "*") with "cloudfront:GetDistribution*" in Hwild.
  rewrite Hwild, !elem_of_cons, elem_of_nil. tauto.
Qed.

Variable id : string.
Variable props : option cdk.StackProps.

(** C6 (amended): the invalidation project carries one statement; it allows,
    on every resource, the four actions CreateInvalidation, GetInvalidation,
    ListInvalidations and ListDistributions of the CDN and every action of
    the CDN whose name starts with GetDistribution (the pattern
    [GetDistribution*]), and no other action. *)
Theorem invalidation_policy_allows :
  ∃ st : iam.PolicyStatement,
    invalidation_policy (EdaTodoFrontendPipelineStack id props) = [st]
    ∧ iam.effect st = iam.ALLOW
    ∧ iam.resources st = ["*"]
    ∧ iam.actions st =
        ["cloudfront:CreateInvalidation";
         "cloudfront:GetDistribution*";
         "cloudfront:GetInvalidation";
         "cloudfront:ListInvalidations";
         "cloudfront:ListDistributions"]
    ∧ ∀ action resource : string,
        allows st action resource = true ↔
          action ∈ ["cloudfront:CreateInvalidation";
                    "cloudfront:GetInvalidation";
                    "cloudfront:ListInvalidations";
                    "cloudfront:ListDistributions"]
          ∨ ∃ rest, action = "cloudfront:GetDistribution" +:+ rest.
Proof.
  eexists. split; [vm_compute; reflexivity|].
  do 3 (split; [reflexivity|]).
  by apply allows_by_pattern.
Qed.

End Policy.

(** C6, as stated, fails: the statement of the test's stack also allows
    [GetDistributionConfig], which is not one of the five actions of the
    specification. *)
Lemma invalidation_policy_allows_more :
  ¬ (∀ st, st ∈ invalidation_policy MyTestStack →
       ∀ action, allows st action "*" = true ↔ action ∈ spec_action_set).
Proof.
  intros H.
  eassert (Hst : invalidation_policy MyTestStack = [_]) by (vm_compute; reflexivity).
  rewrite Hst in H.
  specialize (H _ (proj2 (list_elem_of_singleton _ _) eq_refl)
                "cloudfront:GetDistributionConfig").
  destruct H as [Hbad _]. specialize (Hbad eq_refl).
  unfold spec_action_set in Hbad.
  rewrite !elem_of_cons, elem_of_nil in Hbad.
  destruct Hbad as [Hbad|[Hbad|[Hbad|[Hbad|[Hbad|[]]]]]]; discriminate Hbad.
Qed.

(** ** The name of the website bucket *)

Section LetterCase.

Lemma lower_char_not_upper (c : ascii) : is_upper (lower_char c) = false.
Proof. each_char c; reflexivity. Qed.

Lemma lower_char_other (c : ascii) : is_upper c = false → lower_char c = c.
Proof. unfold lower_char. by intros ->. Qed.

Lemma lower_char_same_letter (c d : ascii) :
  same_letter c d = true → lower_char c = lower_char d.
Proof.
  unfold same_letter. rewrite !orb_true_iff, !andb_true_iff, !Ascii.eqb_eq.
  intros [[-> | [Hc ->]] | [Hd ->]]; [reflexivity | |].
  - unfold lower_char at 1. rewrite Hc.
    symmetry. apply lower_char_other. revert Hc. each_char c; by vm_compute.
  - unfold lower_char at 2. rewrite Hd.
    apply lower_char_other. revert Hd. each_char d; by vm_compute.
Qed.

Lemma toLocaleLowerCase_app (s t : string) :
  toLocaleLowerCase (s +:+ t) = toLocaleLowerCase s +:+ toLocaleLowerCase t.
Proof. induction s as [|c s IH]; simpl; [reflexivity | by rewrite IH]. Qed.

Lemma toLocaleLowerCase_case (s : string) :
  ∀ t, differ_only_in_case s t = true → toLocaleLowerCase s = toLocaleLowerCase t.
Proof.
  induction s as [|c s IH]; intros [|d t] H; simpl in H; try discriminate H.
  - reflexivity.
  - apply andb_true_iff in H as [Hcd Hst]. simpl.
    by rewrite (lower_char_same_letter _ _ Hcd), (IH _ Hst).
Qed.

Lemma toLocaleLowerCase_get (s t : string) :
  ∀ i c, String.get i s = Some c →
    String.get i (toLocaleLowerCase (s +:+ t)) = Some (lower_char c).
Proof.
  induction s as [|d s IH]; intros i c H; [discriminate H|].
  destruct i as [|i]; simpl in *; [by injection H as -> | by apply IH].
Qed.

Lemma toLocaleLowerCase_lower (s : string) :
  ∀ i c, String.get i (toLocaleLowerCase s) = Some c → is_upper c = false.
Proof.
  induction s as [|d s IH]; intros i c H; [discriminate H|].
  destruct i as [|i]; simpl in H; [|by eapply IH].
  injection H as <-. apply lower_char_not_upper.
Qed.

Variable props : option cdk.StackProps.

Lemma bucket_of_stack (id : string) :
  buckets (EdaTodoFrontendPipelineStack id props) =
    [{| S3.bucketName := toLocaleLowerCase (id +:+ "-website-bucket");
        S3.removalPolicy := cdk.DESTROY;
        S3.websiteIndexDocument := "index.html";
        S3.websiteErrorDocument := "error.html";
        S3.publicReadAccess := true |}].
Proof. reflexivity. Qed.

End LetterCase.

(** * Further properties of the constructor *)

(** ** Names derived from the stack id *)

Section Names.

Lemma string_length_app (s t : string) :
  String.length (s +:+ t) = String.length s + String.length t.
Proof. induction s as [|c s IH]; simpl; [reflexivity | by rewrite IH]. Qed.

Lemma append_inv_tail (t : string) :
  ∀ s1 s2 : string, s1 +:+ t = s2 +:+ t → s1 = s2.
Proof.
  induction s1 as [|c s1 IH]; intros [|d s2] H; simpl in H.
  - reflexivity.
  - apply (f_equal String.length) in H.
    rewrite !string_length_app in H. simpl in H. lia.
  - apply (f_equal String.length) in H.
    rewrite !string_length_app in H. simpl in H. lia.
  - injection H as -> H. by rewrite (IH _ H).
Qed.

Lemma pipeline_of_stack (id : string) (props : option cdk.StackProps) :
  pipeline_names (EdaTodoFrontendPipelineStack id props) = [id +:+ "_pipeline"].
Proof. reflexivity. Qed.

Lemma projects_of_stack (id : string) (props : option cdk.StackProps) :
  project_names (EdaTodoFrontendPipelineStack id props) =
    [id +:+ "_codebuild_project_build_website";
     id +:+ "_codebuild_project_cloudfront_cache_invalidation"].
Proof. reflexivity. Qed.

(** X1: whatever the stack id, the seven construct ids the constructor
    registers under the stack are pairwise distinct, and so are the names of
    its two build projects. *)
Theorem construct_ids_never_clash (id : string) (props : option cdk.StackProps) :
  NoDup (fst <$> children (EdaTodoFrontendPipelineStack id props))
  ∧ NoDup (project_names (EdaTodoFrontendPipelineStack id props)).
Proof.
  split; [exact (children_names_distinct id props)|].
  rewrite projects_of_stack.
  apply NoDup_cons; split; [|apply NoDup_singleton].
  rewrite list_elem_of_singleton. intros H.
  apply append_inv_head in H. discriminate H.
Qed.

(** X2: stacks with different ids never share the name of a pipeline or of
    a build project. *)
Theorem names_differ_across_ids (id1 id2 : string)
    (props1 props2 : option cdk.StackProps) :
  id1 ≠ id2 →
  (∀ n, n ∈ pipeline_names (EdaTodoFrontendPipelineStack id1 props1) →
        n ∉ pipeline_names (EdaTodoFrontendPipelineStack id2 props2))
  ∧ (∀ n, n ∈ project_names (EdaTodoFrontendPipelineStack id1 props1) →
          n ∉ project_names (EdaTodoFrontendPipelineStack id2 props2)).
Proof.
  intros Hne. rewrite !pipeline_of_stack, !projects_of_stack. split; intros n.
  - rewrite !list_elem_of_singleton. intros -> H.
    by apply append_inv_tail in H.
  - rewrite !elem_of_cons, !elem_of_nil.
    intros [-> | [-> | []]] [H | [H | []]].
    + by apply append_inv_tail in H.
    + apply (f_equal last_char) in H. rewrite !last_char_append in H. discriminate H.
    + apply (f_equal last_char) in H. rewrite !last_char_append in H. discriminate H.
    + by apply append_inv_tail in H.
Qed.

End Names.

(** The pipeline of stack [a] is not a pipeline of stack [b]. *)
Lemma names_differ_across_ids_witness :
  "a_pipeline" ∉ pipeline_names (EdaTodoFrontendPipelineStack "b" None).
Proof.
  apply (proj1 (names_differ_across_ids "a" "b" None None
                  (λ H : "a" = "b", ltac:(discriminate H)))).
  vm_compute. apply list_elem_of_here.
Defined.

(** ** More on the name of the bucket *)

Section BucketName.

Lemma is_upper_bound (c : ascii) : is_upper c = true → nat_of_ascii c + 32 < 256.
Proof.
  unfold is_upper. intros H. apply andb_true_iff in H as [_ H].
  apply Nat.leb_le in H. lia.
Qed.

Lemma shift_case_inj (c d : ascii) :
  is_upper c = true → is_upper d = true → shift_case c = shift_case d → c = d.
Proof.
  intros Hc Hd H. apply (f_equal nat_of_ascii) in H. unfold shift_case in H.
  rewrite !nat_ascii_embedding in H by by apply is_upper_bound.
  rewrite <- (ascii_nat_embedding c), <- (ascii_nat_embedding d).
  f_equal. lia.
Qed.

(** Characters with the same lower-case form are the two cases of a letter. *)
Lemma same_letter_lower_char (c d : ascii) :
  lower_char c = lower_char d → same_letter c d = true.
Proof.
  unfold lower_char, same_letter. fold (shift_case c) (shift_case d).
  destruct (is_upper c) eqn:Hc, (is_upper d) eqn:Hd; intros H.
  - rewrite (shift_case_inj c d Hc Hd H), Ascii.eqb_refl. reflexivity.
  - rewrite <- H, Ascii.eqb_refl. cbn. by rewrite orb_true_r.
  - rewrite H, Ascii.eqb_refl. cbn. by rewrite orb_true_r.
  - rewrite H, Ascii.eqb_refl. reflexivity.
Qed.

Lemma case_toLocaleLowerCase (s : string) :
  ∀ t, toLocaleLowerCase s = toLocaleLowerCase t → differ_only_in_case s t = true.
Proof.
  induction s as [|c s IH]; intros [|d t] H; simpl in H; try discriminate H.
  - reflexivity.
  - injection H as Hcd Hst. simpl.
    by rewrite (same_letter_lower_char _ _ Hcd), (IH _ Hst).
Qed.

Lemma toLocaleLowerCase_length (s : string) :
  String.length (toLocaleLowerCase s) = String.length s.
Proof. induction s as [|c s IH]; simpl; [reflexivity | by rewrite IH]. Qed.



Lemma bucket_names_of_stack (id : string) (props : option cdk.StackProps) :
  bucket_names (EdaTodoFrontendPipelineStack id props)
  = [toLocaleLowerCase (id +:+ "-website-bucket")].
Proof. reflexivity. Qed.

Lemma s3_char_lower (c : ascii) : s3_char (lower_char c) = id_char c.
Proof. each_char c; reflexivity. Qed.

Lemma all_chars_s3_lower (s t : string) :
  all_chars s3_char (toLocaleLowerCase (s +:+ t))
  = all_chars id_char s && all_chars s3_char (toLocaleLowerCase t).
Proof.
  induction s as [|c s IH]; [reflexivity|].
  simpl. by rewrite s3_char_lower, IH, andb_assoc.
Qed.

Lemma all_chars_get (P : ascii → bool) (s : string) :
  all_chars P s = true → ∀ i c, String.get i s = Some c → P c = true.
Proof.
  induction s as [|d s IH]; intros Hall i c H; [discriminate H|].
  simpl in Hall. apply andb_true_iff in Hall as [Hd Hs].
  destruct i as [|i]; simpl in H; [by injection H as <- | by eapply IH].
Qed.


(** What it takes for the constructor to return. *)
Lemma Built_inv (id : string) (props : option cdk.StackProps) (s : Stack) :
  new_EdaTodoFrontendPipelineStack id props = Built s →
  s = EdaTodoFrontendPipelineStack id props
  ∧ valid_stack_name (default id (props ≫= cdk.stackName)) = true
  ∧ all_chars is_ascii id = true
  ∧ valid_bucket_name (toLocaleLowerCase (id +:+ "-website-bucket")) = true.
Proof.
  unfold new_EdaTodoFrontendPipelineStack.
  destruct (valid_stack_name _); cbn [negb]; [|discriminate].
  destruct (all_chars is_ascii id); cbn [negb]; [|discriminate].
  destruct (valid_bucket_name _); cbn [negb]; [|discriminate].
  intros H.
  assert (Hs : ∀ a b, Built a = Built b → a = b) by (intros a b Hab; by injection Hab).
  apply Hs in H. subst s. repeat split.
Qed.

Lemma valid_bucket_name_inv (name : string) :
  valid_bucket_name name = true →
  String.length name ≤ 63
  ∧ all_chars s3_char name = true
  ∧ from_option s3_edge_char false (first_char name) = true.
Proof.
  unfold valid_bucket_name. rewrite !andb_true_iff, !Nat.leb_le. tauto.
Qed.

(** C10 (amended): when the constructor returns, the stack has one bucket,
    named by the lower-case form of [<id>-website-bucket]: the name has no
    upper-case letter; the id is made of letters, digits, hyphens and dots;
    at every position of the id the name has the lower-case form of the
    character there, which is the character itself unless it is an
    upper-case letter; and an id that differs in the case of letters only,
    if the constructor returns for it, gives the same name. *)
Theorem bucket_name_is_lowercase (id : string) (props : option cdk.StackProps)
    (s : Stack) :
  new_EdaTodoFrontendPipelineStack id props = Built s →
  bucket_names s = [toLocaleLowerCase (id +:+ "-website-bucket")]
  ∧ ∀ name, name ∈ bucket_names s →
      (∀ i c, String.get i name = Some c → is_upper c = false)
      ∧ (∀ i c, String.get i id = Some c → id_char c = true)
      ∧ (∀ i c, String.get i id = Some c →
           String.get i name = Some (lower_char c))
      ∧ (∀ i c, String.get i id = Some c → is_upper c = false →
           String.get i name = Some c)
      ∧ (∀ id' props' s', differ_only_in_case id id' = true →
           new_EdaTodoFrontendPipelineStack id' props' = Built s' →
           bucket_names s' = [name]).
Proof.
  intros Hbuilt. apply Built_inv in Hbuilt as (-> & _ & _ & Hvalid).
  rewrite bucket_names_of_stack. split; [reflexivity|].
  intros name Hname. apply list_elem_of_singleton in Hname. subst name.
  split; [apply toLocaleLowerCase_lower|].
  split.
  { apply valid_bucket_name_inv in Hvalid as (_ & Hchars & _).
    rewrite all_chars_s3_lower in Hchars. apply andb_true_iff in Hchars as [Hid _].
    by apply all_chars_get. }
  split; [apply toLocaleLowerCase_get|].
  split.
  - intros i c Hget Hc.
    rewrite (toLocaleLowerCase_get _ _ _ _ Hget). by rewrite lower_char_other.
  - intros id' props' s' Hcase Hbuilt'.
    apply Built_inv in Hbuilt' as (-> & _). rewrite bucket_names_of_stack.
    by rewrite !toLocaleLowerCase_app, (toLocaleLowerCase_case _ _ Hcase).
Qed.

(** X3: two stacks the constructor returns get the same bucket name exactly
    when their ids differ at most in the case of letters. *)
Theorem bucket_names_clash_iff (id1 id2 : string)
    (props1 props2 : option cdk.StackProps) (s1 s2 : Stack) :
  new_EdaTodoFrontendPipelineStack id1 props1 = Built s1 →
  new_EdaTodoFrontendPipelineStack id2 props2 = Built s2 →
  bucket_names s1 = bucket_names s2 ↔ differ_only_in_case id1 id2 = true.
Proof.
  intros H1 H2.
  apply Built_inv in H1 as (-> & _). apply Built_inv in H2 as (-> & _).
  rewrite !bucket_names_of_stack, !toLocaleLowerCase_app. split.
  - intros [= H]. apply append_inv_tail in H. by apply case_toLocaleLowerCase.
  - intros H. by rewrite (toLocaleLowerCase_case _ _ H).
Qed.

(** X4: when the constructor returns, the bucket name is fifteen characters
    longer than the stack id, and the id has 1 to 48 characters. *)
Theorem bucket_name_length (id : string) (props : option cdk.StackProps)
    (s : Stack) :
  new_EdaTodoFrontendPipelineStack id props = Built s →
  String.length <$> bucket_names s = [String.length id + 15]
  ∧ 1 ≤ String.length id ≤ 48.
Proof.
  intros Hbuilt. apply Built_inv in Hbuilt as (-> & _ & _ & Hvalid).
  apply valid_bucket_name_inv in Hvalid as (Hlen & _ & Hfirst).
  rewrite toLocaleLowerCase_length, string_length_app in Hlen. simpl in Hlen.
  rewrite bucket_names_of_stack. cbn [fmap list_fmap].
  rewrite toLocaleLowerCase_length, string_length_app.
  split; [reflexivity|]. split; [|lia].
  destruct id as [|c id]; [discriminate Hfirst | simpl; lia].
Qed.


End BucketName.

(** C10, as stated, fails: there is no bucket name for an id with an
    underscore, because the constructor throws for it, on the stack name
    when [props] gives none and on the bucket name otherwise. *)
Lemma underscore_id_is_refused :
  ¬ (∃ s, new_EdaTodoFrontendPipelineStack "MY_stack" None = Built s)
  ∧ ¬ (∃ s, new_EdaTodoFrontendPipelineStack "MY_stack"
              (Some {| cdk.stackName := Some "MyStack"; cdk.description := None |})
            = Built s).
Proof. split; intros [s H]; vm_compute in H; discriminate H. Qed.

(** The ids [My-Stack-1] and [MY-STACK-1] name the same bucket,
    [my-stack-1-website-bucket], with the hyphens and the digit where they
    were. *)
Lemma bucket_name_is_lowercase_witness :
  bucket_names (EdaTodoFrontendPipelineStack "My-Stack-1" None)
    = ["my-stack-1-website-bucket"]
  ∧ String.get 2 "my-stack-1-website-bucket" = Some "-"%char
  ∧ String.get 0 "my-stack-1-website-bucket" = Some "m"%char
  ∧ bucket_names (EdaTodoFrontendPipelineStack "MY-STACK-1" None)
    = ["my-stack-1-website-bucket"].
Proof.
  destruct (bucket_name_is_lowercase "My-Stack-1" None
              (EdaTodoFrontendPipelineStack "My-Stack-1" None) eq_refl)
    as [Hname Hchars].
  destruct (Hchars "my-stack-1-website-bucket"
              ltac:(vm_compute; apply list_elem_of_here))
    as (_ & _ & Hlower & Hkept & Hcase).
  split; [exact Hname|].
  split; [exact (Hkept 2 "-"%char eq_refl eq_refl)|].
  split; [exact (Hlower 0 "M"%char eq_refl)|].
  exact (Hcase "MY-STACK-1" None (EdaTodoFrontendPipelineStack "MY-STACK-1" None)
           eq_refl eq_refl).
Defined.

(** The ids [MyTestStack] and [myteststack] give the same bucket name. *)
Lemma bucket_names_clash_iff_witness :
  bucket_names (EdaTodoFrontendPipelineStack "MyTestStack" None)
  = bucket_names (EdaTodoFrontendPipelineStack "myteststack" None).
Proof.
  exact (proj2 (bucket_names_clash_iff "MyTestStack" "myteststack" None None
                  (EdaTodoFrontendPipelineStack "MyTestStack" None)
                  (EdaTodoFrontendPipelineStack "myteststack" None)
                  eq_refl eq_refl) eq_refl).
Defined.

(** The bucket name of the test's stack has 26 characters. *)
Lemma bucket_name_length_witness :
  String.length <$> bucket_names MyTestStack = [26] ∧ 1 ≤ 11 ≤ 48.
Proof.
  exact (bucket_name_length "MyTestStack" None MyTestStack eq_refl).
Defined.


(** ** Every artifact is produced once and read later *)

Section Flow.
Import Pipeline.

(** What [check_consumed] accepts: every output of every action is an input
    of an action of a later stage. *)
Lemma check_consumed_sound (stages : list StageProps) :
  check_consumed stages = true →
  ∀ j st b art,
    stages !! j = Some st → b ∈ actions st → art ∈ outputs b →
    consumed_after stages j art.
Proof.
  induction stages as [|st0 rest IH]; intros Hcheck j st b art Hst Hb Hart.
  - discriminate Hst.
  - simpl in Hcheck. apply andb_true_iff in Hcheck as [Hhere Hrest].
    destruct j as [|j]; simpl in Hst.
    + injection Hst as <-.
      rewrite forallb_forall in Hhere.
      assert (Hout : art ∈ stage_outputs st0).
      { apply list_elem_of_bind. by exists b. }
      specialize (Hhere art (proj1 (list_elem_of_In _ _) Hout)).
      apply bool_decide_eq_true in Hhere.
      apply list_elem_of_bind in Hhere as (st' & Hin & Hst').
      apply list_elem_of_bind in Hin as (a & Hin & Ha).
      apply list_elem_of_lookup in Hst' as [i Hi].
      exists (S i), st', a. repeat split; [lia | done..].
    + destruct (IH Hrest j st b art Hst Hb Hart) as (i & st' & a & Hi & Hst' & Ha & Hin).
      exists (S i), st', a. repeat split; [lia | done..].
Qed.

(** X6: in the pipeline of the stack no artifact is the output of two
    actions, and every artifact an action produces is an input of an action
    of a strictly later stage. *)
Theorem artifacts_produced_once_and_consumed (id : string)
    (props : option cdk.StackProps) :
  ∀ p, p ∈ pipelines (EdaTodoFrontendPipelineStack id props) →
    NoDup (all_outputs (stages p))
    ∧ ∀ j st b art,
        stages p !! j = Some st → b ∈ actions st → art ∈ outputs b →
        consumed_after (stages p) j art.
Proof.
  intros p Hp.
  assert (Hall : forallb (λ q, bool_decide (NoDup (all_outputs (stages q)))
                               && check_consumed (stages q))
                   (pipelines (EdaTodoFrontendPipelineStack id props)) = true)
    by (vm_compute; reflexivity).
  rewrite forallb_forall in Hall.
  specialize (Hall p (proj1 (list_elem_of_In _ _) Hp)).
  apply andb_true_iff in Hall as [Hnodup Hcons].
  split; [by apply bool_decide_eq_true in Hnodup | by apply check_consumed_sound].
Qed.

End Flow.

(** What the build action of the test's stack produces, the deploy action
    of the next stage reads. *)
Lemma artifacts_produced_once_and_consumed_witness :
  NoDup (all_outputs (Pipeline.stages MyTestStack_pipeline))
  ∧ consumed_after (Pipeline.stages MyTestStack_pipeline) 1 outputWebsite.
Proof.
  assert (Hp : MyTestStack_pipeline ∈ pipelines (EdaTodoFrontendPipelineStack "MyTestStack" None))
    by (vm_compute; apply list_elem_of_here).
  destruct (artifacts_produced_once_and_consumed "MyTestStack" None _ Hp) as [Hnodup Hcons].
  split; [exact Hnodup|].
  apply (Hcons 1
           {| Pipeline.stageName := "Build";
              Pipeline.actions :=
                [CodeBuildAction "Build-Gatsby-Website" 3
                   {| CodePipeline.address := 0; CodePipeline.artifactName := None |}
                   [outputWebsite] None] |}
           (CodeBuildAction "Build-Gatsby-Website" 3
              {| CodePipeline.address := 0; CodePipeline.artifactName := None |}
              [outputWebsite] None)).
  - reflexivity.
  - apply list_elem_of_here.
  - apply list_elem_of_here.
Defined.

(** ** What the outputs, the stages and the policies refer to *)

Section Wholes.
Variable id : string.
Variable props : option cdk.StackProps.

Let stack := EdaTodoFrontendPipelineStack id props.

(** X7: the stack publishes two outputs: the website URL of the bucket the
    Deploy stage uploads to, and the domain name of the distribution whose
    identifier the invalidation project receives. *)
Theorem outputs_refer_to_the_deployed_site :
  ∃ (b d : Handle) (project : CodeBuild.PipelineProject)
    (bucket : S3.BucketProps) (dist : cloudfront.DistributionProps),
    output_values stack
    = [("BucketWebsiteURL", bucketWebsiteUrl b); ("CloudFrontURL", domainName d)]
    ∧ deploy_targets "Deploy" stack = [b]
    ∧ child stack b = Some (Bucket bucket)
    ∧ projects_of_stage "CacheInvalidation" stack = [project]
    ∧ snd <$> CodeBuild.environmentVariables project = [distributionId d]
    ∧ child stack d = Some (Distribution dist).
Proof. by eexists 0, 1, _, _, _. Qed.

(** X8: every stage has one action; the action of the Source stage is the
    only one without an input: a checkout of the master branch of
    nabeelfarid/eda-todo-frontend whose token is the secret
    GITHUB_TOKEN_FOR_AWS of the secrets manager; and what it outputs is the
    input of the build action. *)
Theorem stages_have_one_action :
  ∃ sources : CodePipeline.Artifact,
    (λ p, (λ st, (λ a, (actionName a, length (inputs a))) <$> Pipeline.actions st)
            <$> Pipeline.stages p) <$> pipelines stack
    = [[[("Checkout", 0)]; [("Build-Gatsby-Website", 1)];
        [("DeployWebsite", 1)]; [("Invalidate-Cache", 1)]]]
    ∧ actions_of_stage "Source" stack
      = [GitHubSourceAction "Checkout" "nabeelfarid" "eda-todo-frontend"
           (secretsManager "GITHUB_TOKEN_FOR_AWS") sources "master"]
    ∧ inputs <$> actions_of_stage "Build" stack = [[sources]].
Proof. by eexists. Qed.

(** X9: of the policy statements the code of the stack attaches, the one
    that allows invalidations is the only one, and it is attached to the
    invalidation project; to the project that builds the website the code
    attaches no statement and passes no environment variable. *)
Theorem only_the_invalidation_project_has_a_policy :
  (p ← projects stack; CodeBuild.rolePolicy p) = invalidation_policy stack
  ∧ length (invalidation_policy stack) = 1
  ∧ (λ p, (CodeBuild.rolePolicy p, CodeBuild.environmentVariables p))
      <$> projects_of_stage "Build" stack = [([], [])].
Proof. by vm_compute. Qed.

End Wholes.
